(** * Instagram MCP server: the [get_instagram_posts] tool adapter

    A shallow embedding of the request handlers that [InstagramMCPServer]
    registers in [setupToolHandlers], together with the type guard
    [isValidFetchArgs], and the properties of the adapter that the
    specification states: argument validation, the error taxonomy, the
    pagination envelope and the progress-notification relay.

    The fetch service ([InstagramService.fetchPosts]) and the transport are
    collaborators of the adapter.  The service is a parameter of the
    development; the transport is represented by the log of the effects the
    handler performs on it. *)

From Stdlib Require Import ZArith Bool List String Lia.
From Stdlib Require Import Floats.SpecFloat.
From stdpp Require Import base option gmap strings.

Set Warnings "-register-all".
Local Open Scope string_scope.

(** ** JavaScript values *)

Module JS.

(** A JavaScript [number] is an IEEE-754 binary64 value: signed zeros,
    infinities, NaN, and finite values [(-1)^s * m * 2^e]. *)
Definition number : Type := spec_float.

Definition prec : Z := 53.
Definition emax : Z := 1024.

Definition zero : number := S754_zero false.
Definition neg_zero : number := S754_zero true.
Definition nan : number := S754_nan.
Definition infinity : number := S754_infinity false.

(** The number denoted by an integer literal. *)
Definition of_Z (z : Z) : number := binary_normalize prec emax z 0 false.

(** The number held by an array's [length] property. *)
Definition of_nat (n : nat) : number := of_Z (Z.of_nat n).

(** [m * 2^e] rounded to the nearest number: [ratio 5 (-1)] is [2.5]. *)
Definition ratio (m e : Z) : number := binary_normalize prec emax m e false.

(** [x + y] on numbers. *)
Definition add (x y : number) : number := SFadd prec emax x y.

(** [x === y] on numbers: NaN differs from everything, [-0] equals [+0]. *)
Definition num_eqb (x y : number) : bool := SFeqb x y.

Definition is_nan (x : number) : bool :=
  match x with S754_nan => true | _ => false end.

(** ToBoolean on numbers: [+0], [-0] and NaN are falsy. *)
Definition truthy (x : number) : bool :=
  match x with
  | S754_zero _ | S754_nan => false
  | S754_infinity _ | S754_finite _ _ _ => true
  end.

(** The values the handler can find in the [arguments] member of a
    request: [undefined] and the JSON data types.  A number is any binary64
    value; the guard asks no more of it than [typeof] does. *)
Inductive value : Type :=
  | VUndefined
  | VNull
  | VBool (b : bool)
  | VNumber (x : number)
  | VString (s : string)
  | VArray (items : list value)
  | VObject (props : gmap string value).

(** The results of the [typeof] operator on such values. *)
Inductive type_tag : Type :=
  | TUndefined | TObject | TBoolean | TNumber | TString.

Definition typeof (v : value) : type_tag :=
  match v with
  | VUndefined => TUndefined
  | VNull | VArray _ | VObject _ => TObject
  | VBool _ => TBoolean
  | VNumber _ => TNumber
  | VString _ => TString
  end.

Definition type_tag_eqb (a b : type_tag) : bool :=
  match a, b with
  | TUndefined, TUndefined | TObject, TObject | TBoolean, TBoolean
  | TNumber, TNumber | TString, TString => true
  | _, _ => false
  end.

Definition is_undefined (v : value) : bool :=
  match v with VUndefined => true | _ => false end.

Definition is_null (v : value) : bool :=
  match v with VNull => true | _ => false end.

(** [v === s] for a string literal [s]. *)
Definition is_string_literal (v : value) (s : string) : bool :=
  match v with VString t => String.eqb t s | _ => false end.

(** The three members the adapter reads from its argument object. *)
Inductive field : Type := Username | Limit | StartFrom.

Definition field_name (f : field) : string :=
  match f with
  | Username => "username"
  | Limit => "limit"
  | StartFrom => "startFrom"
  end.

(** The member read [v.f].  An object yields the stored value, or
    [undefined] when it has no such key; an array has none of the three
    names.  The adapter reads members only after it has established that
    [v] is a non-null object. *)
Definition get (v : value) (f : field) : value :=
  match v with
  | VObject props => default VUndefined (props !! field_name f)
  | _ => VUndefined
  end.

End JS.

Import JS.

(** ** Protocol errors *)

Module Mcp.

(** The two members of the SDK's [ErrorCode] that the adapter raises. *)
Inductive ErrorCode : Type := MethodNotFound | InvalidParams.

Record McpError : Type := mkMcpError {
  code : ErrorCode;
  reason : string
}.

End Mcp.

Import Mcp.

(** ** Progress updates and notifications *)

(** Modelled from the spec: the interface [IProgressUpdate], declared in
    [features/instagram/types], is a structured update
    [{message, progress, total, keepAlive?}]; an absent [keepAlive] reads
    as [undefined], here [None]. *)
Record IProgressUpdate : Type := mkProgressUpdate {
  message : string;
  progress : number;
  total : number;
  keepAlive : option bool
}.

(** The argument of a [ProgressCallback]: [string | IProgressUpdate]. *)
Inductive ProgressArg : Type :=
  | Plain (text : string)
  | Detailed (update : IProgressUpdate).

(** The [params] object of a notification.  [param_keepAlive] is [None] when
    the object has no [keepAlive] key and [Some k] when the key is there,
    with the value [k] ([Some b] for a boolean, [None] for [undefined]). *)
Record NotificationParams : Type := mkParams {
  param_message : string;
  param_progress : number;
  param_total : number;
  param_keepAlive : option (option bool)
}.

Record Notification : Type := mkNotification {
  method : string;
  params : NotificationParams
}.

(** The arrow function handed to [fetchPosts] (lines 98-119), as the
    notification it passes to [this.server.notification]. *)
Definition progressCallback (arg : ProgressArg) : Notification :=
  match arg with
  | Plain text =>
      {| method := "progress";
         params := {| param_message := text;
                      param_progress := zero;
                      param_total := zero;
                      param_keepAlive := None |} |}
  | Detailed update =>
      {| method := "progress";
         params := {| param_message := message update;
                      param_progress := progress update;
                      param_total := total update;
                      param_keepAlive := Some (keepAlive update) |} |}
  end.

(** ** Validated arguments *)

(** [number | 'all'] *)
Inductive FetchLimit : Type :=
  | LimitCount (n : number)
  | LimitAll.

(** The type to which the guard [isValidFetchArgs] narrows its argument:
    [{username: string; limit?: number | 'all'; startFrom?: number}]. *)
Record FetchArgs : Type := mkFetchArgs {
  username : string;
  limit : option FetchLimit;
  startFrom : option number
}.

(** [isValidFetchArgs] (lines 155-168), one test per [return false]. *)
Definition isValidFetchArgs (args : value) : bool :=
  if negb (type_tag_eqb (typeof args) TObject) || is_null args then false
  else if negb (type_tag_eqb (typeof (get args Username)) TString) then false
  else if negb (is_undefined (get args Limit))
          && negb (type_tag_eqb (typeof (get args Limit)) TNumber)
          && negb (is_string_literal (get args Limit) "all") then false
  else if negb (is_undefined (get args StartFrom))
          && negb (type_tag_eqb (typeof (get args StartFrom)) TNumber) then false
  else true.

(** The members of an argument object read at the narrowed type. *)
Definition as_string (v : value) : option string :=
  match v with VString s => Some s | _ => None end.

Definition as_limit (v : value) : option (option FetchLimit) :=
  match v with
  | VUndefined => Some None
  | VNumber n => Some (Some (LimitCount n))
  | VString s => if String.eqb s "all" then Some (Some LimitAll) else None
  | _ => None
  end.

Definition as_optional_number (v : value) : option (option number) :=
  match v with
  | VUndefined => Some None
  | VNumber n => Some (Some n)
  | _ => None
  end.

Definition narrow (args : value) : option FetchArgs :=
  match args with
  | VObject _ =>
      match as_string (get args Username),
            as_limit (get args Limit),
            as_optional_number (get args StartFrom) with
      | Some u, Some l, Some s =>
          Some {| username := u; limit := l; startFrom := s |}
      | _, _, _ => None
      end
  | _ => None
  end.

(** [v || d] at type [number | undefined]. *)
Definition or_default (v : option number) (d : number) : number :=
  match v with
  | Some x => if truthy x then x else d
  | None => d
  end.

(** ** The fetch service, as the adapter sees it *)

(** What a rejected [fetchPosts] promise carries: an [Error] instance with
    its [message], or any other value, given by its [String(...)]
    rendering. *)
Inductive Thrown : Type :=
  | ThrownError (error_message : string)
  | ThrownValue (rendering : string).

(** [error instanceof Error ? error.message : String(error)] (line 146). *)
Definition detail (e : Thrown) : string :=
  match e with
  | ThrownError error_message => error_message
  | ThrownValue rendering => rendering
  end.

Inductive Settled (Post : Type) : Type :=
  | Resolved (posts : list Post)
  | Rejected (e : Thrown).

Arguments Resolved {Post} posts.
Arguments Rejected {Post} e.

(** One run of [fetchPosts]: the arguments it passed to the progress
    callback, in order, and how its promise settled. *)
Record ServiceRun (Post : Type) : Type := mkRun {
  emitted : list ProgressArg;
  settled : Settled Post
}.

Arguments mkRun {Post} emitted settled.
Arguments emitted {Post} _.
Arguments settled {Post} _.

(** ** The response envelope *)

Record CurrentBatch : Type := mkBatch {
  batch_start : number;
  batch_end : number;
  batch_size : nat
}.

Record Pagination : Type := mkPagination {
  currentBatch : CurrentBatch;
  nextStartFrom : number;
  hasMore : bool
}.

Record Payload (Post : Type) : Type := mkPayload {
  posts : list Post;
  pagination : Pagination
}.

Arguments mkPayload {Post} posts pagination.
Arguments posts {Post} _.
Arguments pagination {Post} _.

Inductive Content (Post : Type) : Type :=
  | JsonContent (json : Payload Post)
  | TextContent (text : string).

Arguments JsonContent {Post} json.
Arguments TextContent {Post} text.

(** The value a call handler resolves to; [isError] is [None] when the
    member is left out. *)
Record CallToolResult (Post : Type) : Type := mkResult {
  content : list (Content Post);
  isError : option bool
}.

Arguments mkResult {Post} content isError.
Arguments content {Post} _.
Arguments isError {Post} _.

(** How a handler invocation ends: its promise resolves to a result, or the
    handler throws a protocol error. *)
Inductive Completion (Post : Type) : Type :=
  | Returns (result : CallToolResult Post)
  | Throws (error : McpError).

Arguments Returns {Post} result.
Arguments Throws {Post} error.

(** What the handler does to its collaborators, in the order it does it. *)
Inductive Effect : Type :=
  | FetchInvoked (user : string) (lim : option FetchLimit) (from : option number)
  | Notified (n : Notification).

Definition is_fetch (e : Effect) : bool :=
  match e with FetchInvoked _ _ _ => true | Notified _ => false end.

(** The notifications among a list of effects, in order. *)
Fixpoint notifications (log : list Effect) : list Notification :=
  match log with
  | [] => []
  | FetchInvoked _ _ _ :: rest => notifications rest
  | Notified n :: rest => n :: notifications rest
  end.

Record CallToolRequest : Type := mkRequest {
  tool_name : string;
  arguments : value
}.

Definition TOOL : string := "get_instagram_posts".

Definition ERROR_PREFIX : string := "Instagram error: ".

(** ** The call handler *)

Section Server.

Variable Post : Type.

(** [this.instagramService.fetchPosts(username, limit, startFrom, cb)]:
    the run it performs for the given arguments. *)
Variable fetchPosts :
  string -> option FetchLimit -> option number -> ServiceRun Post.

(** The object literal of lines 122-140. *)
Definition envelope (a : FetchArgs) (ps : list Post) : CallToolResult Post :=
  {| content :=
       [ JsonContent
           {| posts := ps;
              pagination :=
                {| currentBatch :=
                     {| batch_start := or_default (startFrom a) zero;
                        batch_end :=
                          add (or_default (startFrom a) zero) (of_nat (length ps));
                        batch_size := length ps |};
                   nextStartFrom :=
                     add (or_default (startFrom a) zero) (of_nat (length ps));
                   hasMore := Nat.eqb (length ps) 3 |} |} ];
     isError := None |}.

(** The object literal of lines 142-150. *)
Definition soft_error (e : Thrown) : CallToolResult Post :=
  {| content := [ TextContent (String.append ERROR_PREFIX (detail e)) ];
     isError := Some true |}.

(** The [try] statement of lines 93-151, for arguments that passed the
    guard. *)
Definition fetch_and_wrap (a : FetchArgs) : list Effect * Completion Post :=
  let run := fetchPosts (username a) (limit a) (startFrom a) in
  let log :=
    FetchInvoked (username a) (limit a) (startFrom a)
      :: map (fun arg => Notified (progressCallback arg)) (emitted run) in
  match settled run with
  | Resolved ps => (log, Returns (envelope a ps))
  | Rejected e => (log, Returns (soft_error e))
  end.

(** The handler registered for [CallToolRequestSchema] (lines 77-152). *)
Definition callTool (request : CallToolRequest) : list Effect * Completion Post :=
  if negb (String.eqb (tool_name request) TOOL) then
    ([], Throws {| code := MethodNotFound;
                   reason := String.append "Unknown tool: " (tool_name request) |})
  else
    let args := arguments request in
    if negb (isValidFetchArgs args) then
      ([], Throws {| code := InvalidParams; reason := "Invalid fetch arguments" |})
    else
      match narrow args with
      | Some a => fetch_and_wrap a
      | None =>
          (* no argument object reaches this branch: [narrow_of_valid] *)
          ([], Throws {| code := InvalidParams; reason := "Invalid fetch arguments" |})
      end.

(** A call succeeded with payload [p]. *)
Definition succeeds_with (request : CallToolRequest) (p : Payload Post) : Prop :=
  snd (callTool request) = Returns {| content := [JsonContent p]; isError := None |}.

End Server.

Arguments envelope {Post} a ps.
Arguments soft_error {Post} e.
Arguments fetch_and_wrap {Post} fetchPosts a.
Arguments callTool {Post} fetchPosts request.
Arguments succeeds_with {Post} fetchPosts request p.

(** ** The contract, in the words of the specification *)

(** The contract of section 6 of the specification, member by member:
    [username] must be a string; [limit], if present, a number or the
    literal ["all"]; [startFrom], if present, a number. *)
Definition username_well_typed (v : value) : bool :=
  match v with VString _ => true | _ => false end.

Definition limit_well_typed (v : value) : bool :=
  match v with
  | VUndefined | VNumber _ => true
  | VString s => String.eqb s "all"
  | _ => false
  end.

Definition startFrom_well_typed (v : value) : bool :=
  match v with VUndefined | VNumber _ => true | _ => false end.

Definition wrongly_typed (args : value) : bool :=
  negb (username_well_typed (get args Username))
  || negb (limit_well_typed (get args Limit))
  || negb (startFrom_well_typed (get args StartFrom)).

(** The starting cursor of a call: [args.startFrom], or [0] when it is
    absent.  A [startFrom] of another type is no cursor. *)
Definition starting_cursor (args : value) : option number :=
  match get args StartFrom with
  | VUndefined => Some zero
  | VNumber x => Some x
  | _ => None
  end.

(** A limit inside the integer range [[1,3]]. *)
Definition in_documented_range (n : number) : bool :=
  num_eqb n (of_Z 1) || num_eqb n (of_Z 2) || num_eqb n (of_Z 3).

(** How a progress argument is to be forwarded: a plain message with the
    sentinel zeros and no [keepAlive] key, a structured update with each of
    its members as it is. *)
Inductive forwards : ProgressArg -> Notification -> Prop :=
  | forwards_plain (text : string) :
      forwards (Plain text)
        {| method := "progress";
           params := {| param_message := text;
                        param_progress := zero;
                        param_total := zero;
                        param_keepAlive := None |} |}
  | forwards_detailed (update : IProgressUpdate) (n : Notification) :
      method n = "progress" ->
      param_message (params n) = message update ->
      param_progress (params n) = progress update ->
      param_total (params n) = total update ->
      param_keepAlive (params n) = Some (keepAlive update) ->
      forwards (Detailed update) n.

(** The message of a failure: the [message] of an [Error], and for any
    other rejection value the string it is converted to. *)
Inductive failure_message : Thrown -> string -> Prop :=
  | message_of_error (text : string) :
      failure_message (ThrownError text) text
  | message_of_value (text : string) :
      failure_message (ThrownValue text) text.

(** What the caller gave as [limit]: nothing, a count, or ["all"]. *)
Inductive limit_given : value -> option FetchLimit -> Prop :=
  | limit_omitted : limit_given VUndefined None
  | limit_number (n : number) : limit_given (VNumber n) (Some (LimitCount n))
  | limit_all : limit_given (VString "all") (Some LimitAll).

(** What the caller gave as [startFrom]: nothing, or a number. *)
Inductive cursor_given : value -> option number -> Prop :=
  | cursor_omitted : cursor_given VUndefined None
  | cursor_number (x : number) : cursor_given (VNumber x) (Some x).

(** ** Sample calls *)

Module Samples.

(** Posts are opaque to the adapter; in the samples a post is its
    caption. *)
Definition Post : Type := string.

(** A service double that performs the same recorded run whatever it is
    asked. *)
Definition replay (run : ServiceRun Post)
  : string -> option FetchLimit -> option number -> ServiceRun Post :=
  fun _ _ _ => run.

Definition object (members : list (string * value)) : value :=
  VObject (list_to_map members).

Definition call (members : list (string * value)) : CallToolRequest :=
  {| tool_name := TOOL; arguments := object members |}.

Definition quiet (ps : list Post) : ServiceRun Post :=
  {| emitted := []; settled := Resolved ps |}.

(** [{username: "alice", limit: 2, startFrom: 5}], two records found. *)
Definition alice_call : CallToolRequest :=
  call [("username", VString "alice"); ("limit", VNumber (of_Z 2));
        ("startFrom", VNumber (of_Z 5))].

Definition alice_payload : Payload Post :=
  {| posts := ["p1"; "p2"];
     pagination :=
       {| currentBatch :=
            {| batch_start := of_Z 5; batch_end := of_Z 7; batch_size := 2 |};
          nextStartFrom := of_Z 7;
          hasMore := false |} |}.

(** [{username: "alice", limit: 3}], a full batch. *)
Definition full_batch_call : CallToolRequest :=
  call [("username", VString "alice"); ("limit", VNumber (of_Z 3))].

Definition full_batch_payload : Payload Post :=
  {| posts := ["p1"; "p2"; "p3"];
     pagination :=
       {| currentBatch :=
            {| batch_start := zero; batch_end := of_Z 3; batch_size := 3 |};
          nextStartFrom := of_Z 3;
          hasMore := true |} |}.

(** [{username: "bob", limit: "all", startFrom: 0}] over rounds of 3, 3
    and 1 records, each announced, the second with a keep-alive. *)
Definition bob_call : CallToolRequest :=
  call [("username", VString "bob"); ("limit", VString "all");
        ("startFrom", VNumber zero)].

Definition bob_rounds : list (list Post) :=
  [["b1"; "b2"; "b3"]; ["b4"; "b5"; "b6"]; ["b7"]].

Definition bob_run : ServiceRun Post :=
  {| emitted :=
       [ Plain "round 1";
         Detailed {| message := "round 2"; progress := of_Z 6;
                     total := zero; keepAlive := Some true |};
         Detailed {| message := "round 3"; progress := of_Z 7;
                     total := of_Z 7; keepAlive := None |} ];
     settled := Resolved (concat bob_rounds) |}.

Definition bob_payload : Payload Post :=
  {| posts := concat bob_rounds;
     pagination :=
       {| currentBatch :=
            {| batch_start := zero; batch_end := of_Z 7; batch_size := 7 |};
          nextStartFrom := of_Z 7;
          hasMore := false |} |}.

(** [{username: "carol", limit: "all"}] on a profile of exactly three
    posts: a full round, then an empty one that ends the loop. *)
Definition carol_call : CallToolRequest :=
  call [("username", VString "carol"); ("limit", VString "all")].

Definition carol_rounds : list (list Post) := [["c1"; "c2"; "c3"]; []].

Definition carol_payload : Payload Post :=
  {| posts := concat carol_rounds;
     pagination :=
       {| currentBatch :=
            {| batch_start := zero; batch_end := of_Z 3; batch_size := 3 |};
          nextStartFrom := of_Z 3;
          hasMore := true |} |}.

(** [{username: "alice", startFrom: NaN}], two records found. *)
Definition nan_cursor_call : CallToolRequest :=
  call [("username", VString "alice"); ("startFrom", VNumber nan)].

Definition nan_cursor_payload : Payload Post :=
  {| posts := ["p1"; "p2"];
     pagination :=
       {| currentBatch :=
            {| batch_start := zero; batch_end := of_Z 2; batch_size := 2 |};
          nextStartFrom := of_Z 2;
          hasMore := false |} |}.

(** [{username: "alice", limit: n}] *)
Definition limit_call (n : number) : CallToolRequest :=
  call [("username", VString "alice"); ("limit", VNumber n)].

(** [{username: ""}] *)
Definition empty_username_call : CallToolRequest :=
  call [("username", VString "")].

(** A call that names another tool, with arguments of any kind. *)
Definition other_tool_call : CallToolRequest :=
  {| tool_name := "get_instagram_stories"; arguments := VNull |}.

(** The service finds no logged-in browser session. *)
Definition no_session : ServiceRun Post :=
  {| emitted := [Plain "Connecting to Chrome"];
     settled := Rejected (ThrownError "No active session") |}.

End Samples.

(** ** The tool listing *)

(** An object literal with the given members. *)
Definition literal (members : list (string * value)) : value :=
  VObject (list_to_map members).

(** The double-quote character, for the texts that contain one. *)
Definition dquote : string := String (Ascii.ascii_of_nat 34) EmptyString.

(** An entry of the [tools] array. *)
Record ToolDescriptor : Type := mkTool {
  name : string;
  description : string;
  inputSchema : value
}.

(** The handler registered for [ListToolsRequestSchema] (lines 50-75), as
    the [tools] member of the object it resolves to. *)
Definition listTools : list ToolDescriptor :=
  [ {| name := "get_instagram_posts";
       description :=
         "Get recent posts from an Instagram profile using existing Chrome login";
       inputSchema :=
         literal
           [ ("type", VString "object");
             ("properties",
              literal
                [ ("username",
                   literal
                     [ ("type", VString "string");
                       ("description",
                        VString "Instagram username to fetch posts from") ]);
                  ("limit",
                   literal
                     [ ("type", VArray [VString "number"; VString "string"]);
                       ("description",
                        VString
                          (String.append "Number of posts to fetch (1-3) or "
                             (String.append dquote
                                (String.append "all"
                                   (String.append dquote
                                      " for continuous batches"))))) ]);
                  ("startFrom",
                   literal
                     [ ("type", VString "number");
                       ("description",
                        VString "Index to start fetching from (for pagination)") ])
                ]);
             ("required", VArray [VString "username"]) ] |} ].

(** The member [k] of an object literal, if it has one. *)
Definition literal_member (v : value) (k : string) : option value :=
  match v with
  | VObject props => props !! k
  | _ => None
  end.

(** The strings among the items of an array literal. *)
Definition strings_in (items : list value) : list string :=
  flat_map (fun item => match item with VString s => [s] | _ => [] end) items.

(** The names under the [required] keyword of a schema literal. *)
Definition required_members (schema : value) : list string :=
  match literal_member schema "required" with
  | Some (VArray items) => strings_in items
  | _ => []
  end.

(** The type names a schema literal gives for its property [k]: the [type]
    keyword holds one name or an array of names. *)
Definition declared_types (schema : value) (k : string) : list string :=
  match literal_member schema "properties" with
  | Some properties =>
      match literal_member properties k with
      | Some property =>
          match literal_member property "type" with
          | Some (VString t) => [t]
          | Some (VArray items) => strings_in items
          | _ => []
          end
      | None => []
      end
  | None => []
  end.

(** The string the [typeof] operator evaluates to. *)
Definition type_name (t : type_tag) : string :=
  match t with
  | TUndefined => "undefined"
  | TObject => "object"
  | TBoolean => "boolean"
  | TNumber => "number"
  | TString => "string"
  end.

(** ** Process lifecycle *)

(** What the shutdown path does to the service, the server and the
    process. *)
Inductive Step : Type :=
  | CloseService
  | CloseServer
  | Exit (status : Z).

(** An [async] body: the steps it performed, and the value its promise is
    fulfilled with or the reason it is rejected with. *)
Definition Async (A : Type) : Type := (list Step * (A + Thrown))%type.

Definition fulfilled {A : Type} (a : A) : Async A := ([], inl a).

(** Sequencing: the continuation runs only if the first part is
    fulfilled; a rejection ends the body. *)
Definition andThen {A B : Type} (m : Async A) (k : A -> Async B) : Async B :=
  match snd m with
  | inl a => (app (fst m) (fst (k a)), snd (k a))
  | inr e => (fst m, inr e)
  end.

(** [await] of a call to a collaborator that is rejected with [e] when
    [rejection] is [Some e]. *)
Definition await (s : Step) (rejection : option Thrown) : Async unit :=
  ([s], match rejection with
        | None => inl tt
        | Some e => inr e
        end).

(** How the two [close] methods behave in a given shutdown. *)
Record Closers : Type := mkClosers {
  service_close : option Thrown;
  server_close : option Thrown
}.

(** [cleanup] (lines 170-173). *)
Definition cleanup (c : Closers) : Async unit :=
  andThen (await CloseService (service_close c))
          (fun _ => await CloseServer (server_close c)).

(** [process.exit(status)]: nothing runs after it. *)
Definition exit (status : Z) : Async unit := ([Exit status], inl tt).

(** The [SIGINT] listener installed by the constructor (lines 43-46). *)
Definition onSIGINT (c : Closers) : Async unit :=
  andThen (cleanup c) (fun _ => exit 0).

(** ** Further sample calls *)

Module Scenarios.

Import Samples.

(** The arguments of [alice_call] with a member the adapter does not
    know. *)
Definition alice_members : gmap string value :=
  list_to_map [("username", VString "alice"); ("limit", VNumber (of_Z 2));
               ("startFrom", VNumber (of_Z 5))].

(** The service hands back five posts although two were asked for. *)
Definition five_posts : list Post := ["p1"; "p2"; "p3"; "p4"; "p5"].

(** [{username: "alice", limit: 2, startFrom: 5}] when nothing is left. *)
Definition drained_payload : Payload Post :=
  {| posts := [];
     pagination :=
       {| currentBatch :=
            {| batch_start := of_Z 5; batch_end := of_Z 5; batch_size := 0 |};
          nextStartFrom := of_Z 5;
          hasMore := false |} |}.

(** The call that follows [alice_call]: [startFrom] is the 7 that call
    gave as [nextStartFrom]; three more records are found. *)
Definition alice_next_call : CallToolRequest :=
  call [("username", VString "alice"); ("limit", VNumber (of_Z 3));
        ("startFrom", VNumber (nextStartFrom (pagination alice_payload)))].

Definition alice_next_payload : Payload Post :=
  {| posts := ["p3"; "p4"; "p5"];
     pagination :=
       {| currentBatch :=
            {| batch_start := of_Z 7; batch_end := of_Z 10; batch_size := 3 |};
          nextStartFrom := of_Z 10;
          hasMore := true |} |}.

(** The one tool of the listing. *)
Definition the_tool : ToolDescriptor :=
  hd {| name := ""; description := ""; inputSchema := VUndefined |} listTools.

End Scenarios.

(** ** Numbers: the facts the envelope arithmetic rests on *)

Section NumberFacts.

Lemma binary_round_aux_sign (sx : bool) (mx ex : Z) (lx : location) :
  binary_round_aux prec emax sx mx ex lx = S754_nan
  \/ binary_round_aux prec emax sx mx ex lx = S754_zero sx
  \/ binary_round_aux prec emax sx mx ex lx = S754_infinity sx
  \/ exists m e, binary_round_aux prec emax sx mx ex lx = S754_finite sx m e.
Proof.
  unfold binary_round_aux.
  destruct (shr_fexp prec emax mx ex lx) as [mrs1 e1].
  destruct (shr_fexp prec emax _ e1 loc_Exact) as [mrs2 e2].
  destruct (shr_m mrs2) as [|m|m].
  - right; left; reflexivity.
  - destruct (Z.leb e2 (Z.sub emax prec)).
    + right; right; right; exists m, e2; reflexivity.
    + right; right; left; reflexivity.
  - left; reflexivity.
Qed.

(** An array length is never the negative zero. *)
Lemma of_nat_not_neg_zero (n : nat) : of_nat n <> neg_zero.
Proof.
  unfold of_nat, of_Z, binary_normalize, neg_zero.
  destruct (Z.of_nat n) as [|p|p] eqn:E; try discriminate; try lia.
  unfold binary_round.
  destruct (shl_align p 0 _) as [mz ez].
  destruct (binary_round_aux_sign false (Zpos mz) ez loc_Exact)
    as [H|[H|[H|(m & e & H)]]]; rewrite H; discriminate.
Qed.

(** [0 + n] is [n] for an array length [n]. *)
Lemma add_zero_of_nat (n : nat) : add zero (of_nat n) = of_nat n.
Proof.
  pose proof (of_nat_not_neg_zero n) as Hn.
  unfold add, zero, neg_zero in *.
  destruct (of_nat n) as [[|]|[|]| |[|] m e]; simpl; congruence.
Qed.

(** Adding an array length does not tell the two zeros apart. *)
Lemma add_neg_zero_of_nat (n : nat) : add neg_zero (of_nat n) = add zero (of_nat n).
Proof.
  pose proof (of_nat_not_neg_zero n) as Hn.
  unfold add, zero, neg_zero in *.
  destruct (of_nat n) as [[|]|[|]| |[|] m e]; simpl; congruence.
Qed.

Lemma num_eqb_refl (x : number) : is_nan x = false -> num_eqb x x = true.
Proof.
  unfold num_eqb, SFeqb.
  destruct x as [s|s| |s m e]; simpl; try discriminate; intros _.
  - reflexivity.
  - destruct s; reflexivity.
  - destruct s; rewrite Z.compare_refl, Pos.compare_cont_refl; reflexivity.
Qed.

(** [x || 0] is numerically [x], unless [x] is NaN. *)
Lemma or_default_zero_eqb (x : number) :
  is_nan x = false -> num_eqb (or_default (Some x) zero) x = true.
Proof.
  intros Hx. unfold or_default.
  destruct (truthy x) eqn:T.
  - apply num_eqb_refl; assumption.
  - destruct x; simpl in *; try discriminate; reflexivity.
Qed.

Lemma add_or_default_zero (x : number) (n : nat) :
  is_nan x = false ->
  add (or_default (Some x) zero) (of_nat n) = add x (of_nat n).
Proof.
  intros Hx. unfold or_default.
  destruct x as [[|]|[|]| |s m e]; simpl in *; try discriminate; try reflexivity.
  symmetry. apply add_neg_zero_of_nat.
Qed.

(** The sum in the envelope is binary64 addition: exact on the cursors of
    any real timeline, rounded to even beyond [2^53]. *)
Example cursor_addition :
  add (of_Z 5) (of_nat 2) = of_Z 7
  /\ add (of_Z (2 ^ 53)) (of_nat 1) = of_Z (2 ^ 53)
  /\ add infinity (of_nat 3) = infinity.
Proof.
  repeat split; vm_compute; reflexivity.
Qed.

End NumberFacts.

(** ** The type guard *)

Section Guard.

Lemma guard_on_members (props : gmap string value) :
  isValidFetchArgs (VObject props)
  = username_well_typed (get (VObject props) Username)
    && limit_well_typed (get (VObject props) Limit)
    && startFrom_well_typed (get (VObject props) StartFrom).
Proof.
  unfold isValidFetchArgs.
  change (typeof (VObject props)) with TObject.
  change (is_null (VObject props)) with false.
  cbn [type_tag_eqb negb orb].
  generalize (get (VObject props) Username) (get (VObject props) Limit)
             (get (VObject props) StartFrom).
  intros u l s.
  destruct u; cbn; try reflexivity;
    destruct l; cbn; try reflexivity;
    try (destruct s; reflexivity).
  destruct (String.eqb _ "all"); cbn; try reflexivity.
  destruct s; reflexivity.
Qed.

Lemma guard_rejects_non_objects (args : value) :
  (forall props, args <> VObject props) ->
  isValidFetchArgs args = false /\ wrongly_typed args = true.
Proof.
  intros Hobj. destruct args; try (split; reflexivity).
  exfalso. eapply Hobj. reflexivity.
Qed.

(** The guard accepts exactly the argument values that are not wrongly
    typed. *)
Lemma guard_spec (args : value) :
  isValidFetchArgs args = negb (wrongly_typed args).
Proof.
  destruct args; try reflexivity.
  rewrite guard_on_members. unfold wrongly_typed.
  destruct (username_well_typed _), (limit_well_typed _),
    (startFrom_well_typed _); reflexivity.
Qed.

(** Whatever the guard accepts has a reading at the narrowed type. *)
Lemma narrow_of_valid (args : value) :
  isValidFetchArgs args = true -> exists a, narrow args = Some a.
Proof.
  destruct args; try discriminate.
  rewrite guard_on_members. unfold narrow.
  generalize (get (VObject props) Username) (get (VObject props) Limit)
             (get (VObject props) StartFrom).
  intros u l s H.
  apply andb_prop in H as [H Hs]. apply andb_prop in H as [Hu Hl].
  destruct u; try discriminate. cbn [as_string].
  destruct l; try discriminate; cbn [as_limit limit_well_typed] in *;
    try rewrite Hl;
    destruct s; try discriminate; cbn [as_optional_number]; eauto.
Qed.

Lemma narrow_members (args : value) (a : FetchArgs) :
  narrow args = Some a ->
  get args Username = VString (username a)
  /\ as_limit (get args Limit) = Some (limit a)
  /\ as_optional_number (get args StartFrom) = Some (startFrom a).
Proof.
  destruct args; try discriminate. unfold narrow.
  generalize (get (VObject props) Username) (get (VObject props) Limit)
             (get (VObject props) StartFrom).
  intros u l s.
  destruct u; try discriminate. cbn [as_string].
  destruct (as_limit l) as [l'|]; try discriminate.
  destruct (as_optional_number s) as [s'|]; try discriminate.
  intros H. injection H as <-. auto.
Qed.

Lemma valid_of_narrow (args : value) (a : FetchArgs) :
  narrow args = Some a -> isValidFetchArgs args = true.
Proof.
  intros H. destruct (narrow_members _ _ H) as (Hu & Hl & Hs).
  destruct args; try discriminate.
  rewrite guard_on_members, Hu. cbn [username_well_typed andb].
  apply andb_true_intro. split.
  - destruct (get (VObject props) Limit); try discriminate; try reflexivity.
    cbn in *. destruct (String.eqb s "all"); [reflexivity | discriminate].
  - destruct (get (VObject props) StartFrom); try discriminate; reflexivity.
Qed.

End Guard.

(** ** The handler, case by case *)

Section Handler.

Context {Post : Type}.
Variable fetchPosts :
  string -> option FetchLimit -> option number -> ServiceRun Post.

Lemma callTool_unknown (request : CallToolRequest) :
  tool_name request <> TOOL ->
  callTool fetchPosts request
  = ([], Throws {| code := MethodNotFound;
                   reason := String.append "Unknown tool: " (tool_name request) |}).
Proof.
  intros H. unfold callTool.
  apply String.eqb_neq in H. rewrite H. reflexivity.
Qed.

Lemma callTool_invalid (request : CallToolRequest) :
  tool_name request = TOOL ->
  isValidFetchArgs (arguments request) = false ->
  callTool fetchPosts request
  = ([], Throws {| code := InvalidParams; reason := "Invalid fetch arguments" |}).
Proof.
  intros Hn Hv. unfold callTool.
  apply String.eqb_eq in Hn. rewrite Hn, Hv. reflexivity.
Qed.

Lemma callTool_valid (request : CallToolRequest) (a : FetchArgs) :
  tool_name request = TOOL ->
  narrow (arguments request) = Some a ->
  callTool fetchPosts request = fetch_and_wrap fetchPosts a.
Proof.
  intros Hn Ha. unfold callTool.
  apply String.eqb_eq in Hn. rewrite Hn.
  rewrite (valid_of_narrow _ _ Ha), Ha. reflexivity.
Qed.

(** A handler invocation that reaches the service first announces the
    invocation, then relays the progress arguments one by one. *)
Lemma fetch_and_wrap_log (a : FetchArgs) :
  fst (fetch_and_wrap fetchPosts a)
  = FetchInvoked (username a) (limit a) (startFrom a)
      :: map (fun arg => Notified (progressCallback arg))
             (emitted (fetchPosts (username a) (limit a) (startFrom a))).
Proof.
  unfold fetch_and_wrap. destruct (settled _); reflexivity.
Qed.

(** Only a resolved service run behind a known tool name and accepted
    arguments produces the success envelope. *)
Lemma succeeds_inv (request : CallToolRequest) (p : Payload Post) :
  succeeds_with fetchPosts request p ->
  exists a,
    tool_name request = TOOL
    /\ narrow (arguments request) = Some a
    /\ settled (fetchPosts (username a) (limit a) (startFrom a)) = Resolved (posts p)
    /\ envelope a (posts p) = {| content := [JsonContent p]; isError := None |}.
Proof.
  unfold succeeds_with, callTool.
  destruct (String.eqb (tool_name request) TOOL) eqn:Hn; cbn [negb];
    try discriminate.
  destruct (isValidFetchArgs (arguments request)) eqn:Hv; cbn [negb];
    try discriminate.
  destruct (narrow (arguments request)) as [a|] eqn:Ha; try discriminate.
  unfold fetch_and_wrap.
  destruct (settled _) as [ps|e] eqn:Hs; cbn [snd]; intros H.
  - exists a. apply String.eqb_eq in Hn.
    injection H as H. subst p. cbn [posts]. auto.
  - discriminate.
Qed.

End Handler.

(** ** Properties of the adapter *)

Section Claims.

Context {Post : Type}.
Variable fetchPosts :
  string -> option FetchLimit -> option number -> ServiceRun Post.

(** The pagination block of a successful call, read off the arguments and
    the returned posts. *)
Lemma pagination_of_success (request : CallToolRequest) (p : Payload Post) :
  succeeds_with fetchPosts request p ->
  exists a,
    narrow (arguments request) = Some a
    /\ batch_start (currentBatch (pagination p)) = or_default (startFrom a) zero
    /\ batch_end (currentBatch (pagination p))
       = add (or_default (startFrom a) zero) (of_nat (length (posts p)))
    /\ batch_size (currentBatch (pagination p)) = length (posts p)
    /\ nextStartFrom (pagination p)
       = add (or_default (startFrom a) zero) (of_nat (length (posts p)))
    /\ hasMore (pagination p) = Nat.eqb (length (posts p)) 3.
Proof.
  intros H. destruct (succeeds_inv _ _ _ H) as (a & _ & Ha & _ & He).
  exists a. split; [exact Ha|].
  unfold envelope in He. injection He as He.
  rewrite <- He. cbn. auto 6.
Qed.

Lemma hasMore_of_success (request : CallToolRequest) (p : Payload Post) :
  succeeds_with fetchPosts request p ->
  hasMore (pagination p) = true <-> length (posts p) = 3.
Proof.
  intros H.
  destruct (pagination_of_success _ _ H) as (a & _ & _ & _ & _ & _ & Hm).
  rewrite Hm. apply Nat.eqb_eq.
Qed.

(** C1. A successful call with a numeric limit reports [hasMore] exactly
    when it returned three posts. *)
Theorem bounded_hasMore_iff_three
    (request : CallToolRequest) (n : number) (p : Payload Post) :
  get (arguments request) Limit = VNumber n ->
  succeeds_with fetchPosts request p ->
  hasMore (pagination p) = true <-> length (posts p) = 3.
Proof.
  intros _ H. exact (hasMore_of_success _ _ H).
Qed.

(** C10. A successful call in unbounded mode ([limit] is ["all"]) computes
    [hasMore] by the same test: it holds exactly when the posts gathered
    over all rounds number three, whatever ended the rounds. *)
Theorem unbounded_hasMore_iff_three
    (request : CallToolRequest) (p : Payload Post) :
  get (arguments request) Limit = VString "all" ->
  succeeds_with fetchPosts request p ->
  hasMore (pagination p) = true <-> length (posts p) = 3.
Proof.
  intros _ H. exact (hasMore_of_success _ _ H).
Qed.

(** The cursor arithmetic of the envelope for any number the guard lets
    through: with [c] the starting cursor [s], or 0 when [s] is NaN,
    [currentBatch.start] is numerically [c], [currentBatch.size] the number
    of posts, [currentBatch.end] the sum [c + size] and [nextStartFrom]
    equal to [currentBatch.end]. *)
Lemma envelope_cursor_arithmetic
    (request : CallToolRequest) (p : Payload Post) (s : number) :
  succeeds_with fetchPosts request p ->
  starting_cursor (arguments request) = Some s ->
  let c := if is_nan s then zero else s in
  num_eqb (batch_start (currentBatch (pagination p))) c = true
  /\ batch_size (currentBatch (pagination p)) = length (posts p)
  /\ batch_end (currentBatch (pagination p)) = add c (of_nat (length (posts p)))
  /\ nextStartFrom (pagination p) = batch_end (currentBatch (pagination p)).
Proof.
  intros H Hs c.
  destruct (pagination_of_success _ _ H)
    as (a & Ha & Hstart & Hend & Hsize & Hnext & _).
  destruct (narrow_members _ _ Ha) as (_ & _ & Hfrom).
  rewrite Hstart, Hend, Hsize, Hnext.
  unfold starting_cursor in Hs.
  destruct (get (arguments request) StartFrom); try discriminate;
    cbn in Hfrom; injection Hfrom as <-; injection Hs as <-.
  - repeat split; reflexivity.
  - subst c. destruct (is_nan x) eqn:Hnan.
    + destruct x; try discriminate. repeat split; reflexivity.
    + repeat split.
      * apply or_default_zero_eqb; assumption.
      * apply add_or_default_zero; assumption.
Qed.

(** C2. For a successful call that returns the posts [p] with starting
    cursor [s] ([args.startFrom], or 0 when absent), the envelope has
    [currentBatch.start == s], [currentBatch.size == length(p)],
    [currentBatch.end == s + length(p)] and
    [nextStartFrom == currentBatch.end].  The cursor is a number a request
    can carry: requests reach the handler as JSON text over the stdio
    transport, and no JSON number is NaN. *)
Theorem envelope_cursor_as_stated
    (request : CallToolRequest) (p : Payload Post) (s : number) :
  succeeds_with fetchPosts request p ->
  starting_cursor (arguments request) = Some s ->
  s <> nan ->
  num_eqb (batch_start (currentBatch (pagination p))) s = true
  /\ batch_size (currentBatch (pagination p)) = length (posts p)
  /\ batch_end (currentBatch (pagination p)) = add s (of_nat (length (posts p)))
  /\ nextStartFrom (pagination p) = batch_end (currentBatch (pagination p)).
Proof.
  intros H Hs Hnan.
  pose proof (envelope_cursor_arithmetic _ _ _ H Hs) as K. cbv zeta in K.
  destruct s; try exact K. contradiction Hnan. reflexivity.
Qed.

(** C7. When [startFrom] is absent, a successful call reports
    [currentBatch.start] as 0 and both [currentBatch.end] and
    [nextStartFrom] as the number of returned posts. *)
Theorem absent_startFrom_counts_from_zero
    (request : CallToolRequest) (p : Payload Post) :
  get (arguments request) StartFrom = VUndefined ->
  succeeds_with fetchPosts request p ->
  batch_start (currentBatch (pagination p)) = zero
  /\ batch_end (currentBatch (pagination p)) = of_nat (length (posts p))
  /\ nextStartFrom (pagination p) = of_nat (length (posts p)).
Proof.
  intros Habs H.
  destruct (pagination_of_success _ _ H)
    as (a & Ha & Hstart & Hend & _ & Hnext & _).
  destruct (narrow_members _ _ Ha) as (_ & _ & Hfrom).
  rewrite Habs in Hfrom. cbn in Hfrom. injection Hfrom as Hfrom.
  rewrite Hstart, Hend, Hnext, <- Hfrom. cbn [or_default].
  rewrite add_zero_of_nat. auto.
Qed.

End Claims.

Section Strings.

Lemma prefix_append (s t : string) : String.prefix s (String.append s t) = true.
Proof.
  induction s as [|c s IH].
  - destruct t; reflexivity.
  - change (String.append (String c s) t) with (String c (String.append s t)).
    cbn [String.prefix].
    destruct (Ascii.ascii_dec c c) as [_|Hc]; [exact IH | congruence].
Qed.

End Strings.

Section Relay.

Lemma progressCallback_forwards (arg : ProgressArg) :
  forwards arg (progressCallback arg).
Proof.
  destruct arg as [text|update]; cbn.
  - constructor.
  - constructor; reflexivity.
Qed.

Lemma notifications_of_relay (args : list ProgressArg) :
  notifications (map (fun arg => Notified (progressCallback arg)) args)
  = map progressCallback args.
Proof.
  induction args as [|arg args IH]; cbn; [reflexivity | now rewrite IH].
Qed.

End Relay.

Section Given.

(** Members given in one of the accepted forms are read at the narrowed
    type as what was given. *)
Lemma narrow_of_given (args : value) (u : string) (l : option FetchLimit)
    (s : option number) :
  get args Username = VString u ->
  limit_given (get args Limit) l ->
  cursor_given (get args StartFrom) s ->
  narrow args = Some {| username := u; limit := l; startFrom := s |}.
Proof.
  intros Hu Hl Hs. destruct args; try discriminate.
  unfold narrow. rewrite Hu. cbn [as_string].
  destruct Hl; destruct Hs; reflexivity.
Qed.

(** Conversely, what the guard accepts gives each member in one of those
    forms. *)
Lemma given_of_narrow (args : value) (a : FetchArgs) :
  narrow args = Some a ->
  get args Username = VString (username a)
  /\ limit_given (get args Limit) (limit a)
  /\ cursor_given (get args StartFrom) (startFrom a).
Proof.
  intros Ha. destruct (narrow_members _ _ Ha) as (Hu & Hl & Hs).
  split; [exact Hu|]. split.
  - destruct (get args Limit); try discriminate; cbn in Hl.
    + injection Hl as <-. constructor.
    + injection Hl as <-. constructor.
    + destruct (String.eqb s "all") eqn:E; try discriminate.
      apply String.eqb_eq in E. subst s. injection Hl as <-. constructor.
  - destruct (get args StartFrom); try discriminate; cbn in Hs;
      injection Hs as <-; constructor.
Qed.

End Given.

Section ErrorClaims.

Context {Post : Type}.
Variable fetchPosts :
  string -> option FetchLimit -> option number -> ServiceRun Post.

(** C3, amended. The adapter does not look at the magnitude of a numeric
    limit: an argument object with a string [username], a numeric [limit]
    of any value and a [startFrom] that is absent or a number passes the
    guard, no protocol error is raised, and the fetch service is invoked
    with that limit as it was given. *)
Theorem numeric_limit_is_forwarded
    (request : CallToolRequest) (u : string) (n : number) (s : option number) :
  tool_name request = TOOL ->
  get (arguments request) Username = VString u ->
  get (arguments request) Limit = VNumber n ->
  as_optional_number (get (arguments request) StartFrom) = Some s ->
  isValidFetchArgs (arguments request) = true
  /\ (exists relayed,
        fst (callTool fetchPosts request)
        = FetchInvoked u (Some (LimitCount n)) s :: relayed)
  /\ (exists result, snd (callTool fetchPosts request) = Returns result).
Proof.
  intros Hn Hu Hl Hs.
  assert (Ha : narrow (arguments request)
               = Some {| username := u; limit := Some (LimitCount n);
                         startFrom := s |}).
  { destruct (arguments request); try discriminate.
    unfold narrow. rewrite Hu, Hl, Hs. reflexivity. }
  split; [exact (valid_of_narrow _ _ Ha)|].
  rewrite (callTool_valid fetchPosts _ _ Hn Ha).
  split.
  - rewrite fetch_and_wrap_log. cbn. eauto.
  - unfold fetch_and_wrap. destruct (settled _); cbn; eauto.
Qed.

(** C4. A call to the tool whose arguments are wrongly typed ([username]
    missing or not a string, [limit] present but neither a number nor
    ["all"], or [startFrom] present but not a number) fails with
    [InvalidParams], and the fetch service is not invoked: the handler
    performs no effect at all. *)
Theorem wrongly_typed_is_InvalidParams (request : CallToolRequest) :
  tool_name request = TOOL ->
  wrongly_typed (arguments request) = true ->
  callTool fetchPosts request
  = ([], Throws {| code := InvalidParams; reason := "Invalid fetch arguments" |}).
Proof.
  intros Hn Hw. apply callTool_invalid; [exact Hn|].
  rewrite guard_spec, Hw. reflexivity.
Qed.

(** C5. When the fetch service, invoked with the caller's [username],
    [limit] and [startFrom], fails with [e], the handler completes with a
    response that is flagged as an error and whose text is
    ["Instagram error: "] followed by the message of [e]: [e.message] for an
    [Error], the string form of [e] otherwise.  The handler returns; it does
    not throw. *)
Theorem service_failure_is_soft_error
    (request : CallToolRequest) (u : string) (l : option FetchLimit)
    (s : option number) (e : Thrown) :
  tool_name request = TOOL ->
  get (arguments request) Username = VString u ->
  limit_given (get (arguments request) Limit) l ->
  cursor_given (get (arguments request) StartFrom) s ->
  settled (fetchPosts u l s) = Rejected e ->
  exists text,
    failure_message e text
    /\ snd (callTool fetchPosts request)
       = Returns {| content :=
                      [TextContent (String.append "Instagram error: " text)];
                    isError := Some true |}
    /\ String.prefix "Instagram error: "
         (String.append "Instagram error: " text) = true.
Proof.
  intros Hn Hu Hl Hs He.
  rewrite (callTool_valid fetchPosts _ _ Hn (narrow_of_given _ _ _ _ Hu Hl Hs)).
  unfold fetch_and_wrap. cbn [username limit startFrom]. rewrite He. cbn [snd].
  unfold soft_error, ERROR_PREFIX.
  destruct e as [text|text]; exists text; cbn [detail];
    (split; [constructor | split; [reflexivity | apply prefix_append]]).
Qed.

(** C6. During a call that reaches the fetch service, the notifications
    the handler sends are, in order, the forwarded forms of the
    arguments the service passed to the progress callback: a plain
    message [m] as [{message: m, progress: 0, total: 0}], a structured
    update with its [message], [progress], [total] and [keepAlive] as
    they are. *)
Theorem progress_is_forwarded (request : CallToolRequest) (a : FetchArgs) :
  tool_name request = TOOL ->
  narrow (arguments request) = Some a ->
  Forall2 forwards
    (emitted (fetchPosts (username a) (limit a) (startFrom a)))
    (notifications (fst (callTool fetchPosts request))).
Proof.
  intros Hn Ha.
  rewrite (callTool_valid fetchPosts _ _ Hn Ha), fetch_and_wrap_log.
  cbn [notifications]. rewrite notifications_of_relay.
  induction (emitted _) as [|arg args IH]; cbn; constructor.
  - apply progressCallback_forwards.
  - exact IH.
Qed.

(** C8. A call that names any tool other than [get_instagram_posts] fails
    with [MethodNotFound], whatever its arguments, and the handler
    performs no effect. *)
Theorem unknown_tool_is_MethodNotFound (request : CallToolRequest) :
  tool_name request <> TOOL ->
  callTool fetchPosts request
  = ([], Throws {| code := MethodNotFound;
                   reason := String.append "Unknown tool: " (tool_name request) |}).
Proof.
  apply callTool_unknown.
Qed.

End ErrorClaims.

(** C9, amended. For every argument object the guard accepts, the
    [username] member is a string; the guard puts no condition on its
    length. *)
Theorem accepted_username_is_string (args : value) :
  isValidFetchArgs args = true ->
  exists s, get args Username = VString s.
Proof.
  intros H. destruct (narrow_of_valid _ H) as [a Ha].
  exists (username a). apply (narrow_members _ _ Ha).
Qed.

(** ** The properties at the sample calls *)

Section Instances.

Import Samples.

Lemma bounded_hasMore_iff_three_witness :
  (get (arguments full_batch_call) Limit = VNumber (of_Z 3)
   /\ succeeds_with (replay (quiet ["p1"; "p2"; "p3"])) full_batch_call
        full_batch_payload
   /\ (hasMore (pagination full_batch_payload) = true
       <-> length (posts full_batch_payload) = 3))
  /\ (get (arguments alice_call) Limit = VNumber (of_Z 2)
      /\ succeeds_with (replay (quiet ["p1"; "p2"])) alice_call alice_payload
      /\ (hasMore (pagination alice_payload) = true
          <-> length (posts alice_payload) = 3)).
Proof.
  assert (L3 : get (arguments full_batch_call) Limit = VNumber (of_Z 3))
    by (vm_compute; reflexivity).
  assert (S3 : succeeds_with (replay (quiet ["p1"; "p2"; "p3"]))
                 full_batch_call full_batch_payload)
    by (vm_compute; reflexivity).
  assert (L2 : get (arguments alice_call) Limit = VNumber (of_Z 2))
    by (vm_compute; reflexivity).
  assert (S2 : succeeds_with (replay (quiet ["p1"; "p2"])) alice_call
                 alice_payload)
    by (vm_compute; reflexivity).
  split.
  - split; [exact L3 | split; [exact S3|]].
    exact (bounded_hasMore_iff_three _ _ _ _ L3 S3).
  - split; [exact L2 | split; [exact S2|]].
    exact (bounded_hasMore_iff_three _ _ _ _ L2 S2).
Defined.

Lemma unbounded_hasMore_iff_three_witness :
  (get (arguments carol_call) Limit = VString "all"
   /\ succeeds_with (replay (quiet (concat carol_rounds))) carol_call
        carol_payload
   /\ (hasMore (pagination carol_payload) = true
       <-> length (posts carol_payload) = 3))
  /\ (get (arguments bob_call) Limit = VString "all"
      /\ succeeds_with (replay bob_run) bob_call bob_payload
      /\ (hasMore (pagination bob_payload) = true
          <-> length (posts bob_payload) = 3)).
Proof.
  assert (Lc : get (arguments carol_call) Limit = VString "all")
    by (vm_compute; reflexivity).
  assert (Sc : succeeds_with (replay (quiet (concat carol_rounds))) carol_call
                 carol_payload)
    by (vm_compute; reflexivity).
  assert (Lb : get (arguments bob_call) Limit = VString "all")
    by (vm_compute; reflexivity).
  assert (Sb : succeeds_with (replay bob_run) bob_call bob_payload)
    by (vm_compute; reflexivity).
  split.
  - split; [exact Lc | split; [exact Sc|]].
    exact (unbounded_hasMore_iff_three _ _ _ Lc Sc).
  - split; [exact Lb | split; [exact Sb|]].
    exact (unbounded_hasMore_iff_three _ _ _ Lb Sb).
Defined.

Lemma envelope_cursor_as_stated_witness :
  succeeds_with (replay (quiet ["p1"; "p2"])) alice_call alice_payload
  /\ starting_cursor (arguments alice_call) = Some (of_Z 5)
  /\ of_Z 5 <> nan
  /\ (num_eqb (batch_start (currentBatch (pagination alice_payload))) (of_Z 5)
      = true
      /\ batch_size (currentBatch (pagination alice_payload))
         = length (posts alice_payload)
      /\ batch_end (currentBatch (pagination alice_payload))
         = add (of_Z 5) (of_nat (length (posts alice_payload)))
      /\ nextStartFrom (pagination alice_payload)
         = batch_end (currentBatch (pagination alice_payload))).
Proof.
  assert (S : succeeds_with (replay (quiet ["p1"; "p2"])) alice_call
                alice_payload)
    by (vm_compute; reflexivity).
  assert (C : starting_cursor (arguments alice_call) = Some (of_Z 5))
    by (vm_compute; reflexivity).
  assert (N : of_Z 5 <> nan) by (vm_compute; discriminate).
  split; [exact S | split; [exact C | split; [exact N|]]].
  exact (envelope_cursor_as_stated _ _ _ _ S C N).
Defined.

(** The example of the specification, field by field. *)
Example alice_envelope :
  snd (callTool (replay (quiet ["p1"; "p2"])) alice_call)
  = Returns
      {| content :=
           [ JsonContent
               {| posts := ["p1"; "p2"];
                  pagination :=
                    {| currentBatch :=
                         {| batch_start := of_Z 5; batch_end := of_Z 7;
                            batch_size := 2 |};
                       nextStartFrom := of_Z 7;
                       hasMore := false |} |} ];
         isError := None |}.
Proof.
  vm_compute. reflexivity.
Qed.

Lemma absent_startFrom_counts_from_zero_witness :
  get (arguments full_batch_call) StartFrom = VUndefined
  /\ succeeds_with (replay (quiet ["p1"; "p2"; "p3"])) full_batch_call
       full_batch_payload
  /\ (batch_start (currentBatch (pagination full_batch_payload)) = zero
      /\ batch_end (currentBatch (pagination full_batch_payload))
         = of_nat (length (posts full_batch_payload))
      /\ nextStartFrom (pagination full_batch_payload)
         = of_nat (length (posts full_batch_payload))).
Proof.
  assert (A : get (arguments full_batch_call) StartFrom = VUndefined)
    by (vm_compute; reflexivity).
  assert (S : succeeds_with (replay (quiet ["p1"; "p2"; "p3"]))
                full_batch_call full_batch_payload)
    by (vm_compute; reflexivity).
  split; [exact A | split; [exact S|]].
  exact (absent_startFrom_counts_from_zero _ _ _ A S).
Defined.

(** C3 fails at [{username: "alice", limit: 5}]: 5 is outside [[1,3]],
    yet the guard accepts the arguments, the fetch service is invoked
    with limit 5 and the call completes without a protocol error. *)
Lemma out_of_range_limit_reaches_service :
  in_documented_range (of_Z 5) = false
  /\ isValidFetchArgs (arguments (limit_call (of_Z 5))) = true
  /\ callTool (replay (quiet ["p1"; "p2"; "p3"])) (limit_call (of_Z 5))
     = ([FetchInvoked "alice" (Some (LimitCount (of_Z 5))) None],
        Returns (envelope {| username := "alice";
                             limit := Some (LimitCount (of_Z 5));
                             startFrom := None |}
                          ["p1"; "p2"; "p3"]))
  /\ existsb is_fetch
       (fst (callTool (replay (quiet ["p1"; "p2"; "p3"])) (limit_call (of_Z 5))))
     = true.
Proof.
  repeat split; vm_compute; reflexivity.
Qed.

(** The other limits the claim names, 0, -1 and 2.5, fare the same. *)
Example other_out_of_range_limits :
  Forall (fun n =>
            in_documented_range n = false
            /\ fst (callTool (replay (quiet [])) (limit_call n))
               = [FetchInvoked "alice" (Some (LimitCount n)) None])
         [of_Z 0; of_Z (-1); ratio 5 (-1)].
Proof.
  repeat constructor; vm_compute; reflexivity.
Qed.

Lemma numeric_limit_is_forwarded_witness :
  tool_name (limit_call (of_Z 5)) = TOOL
  /\ get (arguments (limit_call (of_Z 5))) Username = VString "alice"
  /\ get (arguments (limit_call (of_Z 5))) Limit = VNumber (of_Z 5)
  /\ as_optional_number (get (arguments (limit_call (of_Z 5))) StartFrom)
     = Some None
  /\ (isValidFetchArgs (arguments (limit_call (of_Z 5))) = true
      /\ (exists relayed,
            fst (callTool (replay (quiet ["p1"])) (limit_call (of_Z 5)))
            = FetchInvoked "alice" (Some (LimitCount (of_Z 5))) None :: relayed)
      /\ (exists result,
            snd (callTool (replay (quiet ["p1"])) (limit_call (of_Z 5)))
            = Returns result)).
Proof.
  assert (T : tool_name (limit_call (of_Z 5)) = TOOL) by reflexivity.
  assert (U : get (arguments (limit_call (of_Z 5))) Username = VString "alice")
    by (vm_compute; reflexivity).
  assert (L : get (arguments (limit_call (of_Z 5))) Limit = VNumber (of_Z 5))
    by (vm_compute; reflexivity).
  assert (F : as_optional_number
                (get (arguments (limit_call (of_Z 5))) StartFrom) = Some None)
    by (vm_compute; reflexivity).
  split; [exact T | split; [exact U | split; [exact L | split; [exact F|]]]].
  exact (numeric_limit_is_forwarded (replay (quiet ["p1"])) _ _ _ _ T U L F).
Defined.

Lemma wrongly_typed_is_InvalidParams_witness :
  (* username missing *)
  (tool_name (call [("limit", VNumber (of_Z 2))]) = TOOL
   /\ wrongly_typed (arguments (call [("limit", VNumber (of_Z 2))])) = true
   /\ callTool (replay (quiet ["p1"])) (call [("limit", VNumber (of_Z 2))])
      = ([], Throws {| code := InvalidParams;
                       reason := "Invalid fetch arguments" |}))
  (* limit an out-of-domain string *)
  /\ (wrongly_typed
        (arguments (call [("username", VString "alice");
                          ("limit", VString "ten")])) = true
      /\ callTool (replay (quiet ["p1"]))
           (call [("username", VString "alice"); ("limit", VString "ten")])
         = ([], Throws {| code := InvalidParams;
                          reason := "Invalid fetch arguments" |}))
  (* startFrom a string *)
  /\ (wrongly_typed
        (arguments (call [("username", VString "alice");
                          ("startFrom", VString "5")])) = true
      /\ callTool (replay (quiet ["p1"]))
           (call [("username", VString "alice"); ("startFrom", VString "5")])
         = ([], Throws {| code := InvalidParams;
                          reason := "Invalid fetch arguments" |})).
Proof.
  assert (T : forall members, tool_name (call members) = TOOL)
    by (intros; reflexivity).
  assert (W1 : wrongly_typed (arguments (call [("limit", VNumber (of_Z 2))]))
               = true) by (vm_compute; reflexivity).
  assert (W2 : wrongly_typed
                 (arguments (call [("username", VString "alice");
                                   ("limit", VString "ten")])) = true)
    by (vm_compute; reflexivity).
  assert (W3 : wrongly_typed
                 (arguments (call [("username", VString "alice");
                                   ("startFrom", VString "5")])) = true)
    by (vm_compute; reflexivity).
  split; [split; [exact (T _) | split; [exact W1|]] | split; split].
  - exact (wrongly_typed_is_InvalidParams _ _ (T _) W1).
  - exact W2.
  - exact (wrongly_typed_is_InvalidParams _ _ (T _) W2).
  - exact W3.
  - exact (wrongly_typed_is_InvalidParams _ _ (T _) W3).
Defined.

Lemma service_failure_is_soft_error_witness :
  tool_name alice_call = TOOL
  /\ get (arguments alice_call) Username = VString "alice"
  /\ limit_given (get (arguments alice_call) Limit)
       (Some (LimitCount (of_Z 2)))
  /\ cursor_given (get (arguments alice_call) StartFrom) (Some (of_Z 5))
  /\ settled (replay no_session "alice" (Some (LimitCount (of_Z 2)))
                (Some (of_Z 5)))
     = Rejected (ThrownError "No active session")
  /\ (exists text,
        failure_message (ThrownError "No active session") text
        /\ snd (callTool (replay no_session) alice_call)
           = Returns {| content :=
                          [TextContent
                             (String.append "Instagram error: " text)];
                        isError := Some true |}
        /\ String.prefix "Instagram error: "
             (String.append "Instagram error: " text) = true).
Proof.
  assert (T : tool_name alice_call = TOOL) by reflexivity.
  assert (U : get (arguments alice_call) Username = VString "alice")
    by (vm_compute; reflexivity).
  assert (L : limit_given (get (arguments alice_call) Limit)
                (Some (LimitCount (of_Z 2))))
    by (vm_compute; constructor).
  assert (C : cursor_given (get (arguments alice_call) StartFrom)
                (Some (of_Z 5)))
    by (vm_compute; constructor).
  assert (R : settled (replay no_session "alice" (Some (LimitCount (of_Z 2)))
                         (Some (of_Z 5)))
              = Rejected (ThrownError "No active session")) by reflexivity.
  split; [exact T | split; [exact U | split; [exact L | split; [exact C |
    split; [exact R|]]]]].
  exact (service_failure_is_soft_error (replay no_session) _ _ _ _ _
           T U L C R).
Defined.

(** The texts of two soft errors, one for an [Error] and one for a thrown
    string. *)
Example soft_error_texts :
  snd (callTool (replay no_session) alice_call)
  = Returns {| content := [TextContent "Instagram error: No active session"];
               isError := Some true |}
  /\ snd (callTool
            (replay {| emitted := [];
                       settled := Rejected (ThrownValue "timeout") |})
            alice_call)
     = Returns {| content := [TextContent "Instagram error: timeout"];
                  isError := Some true |}.
Proof.
  split; vm_compute; reflexivity.
Qed.

Lemma progress_is_forwarded_witness :
  tool_name bob_call = TOOL
  /\ narrow (arguments bob_call)
     = Some {| username := "bob"; limit := Some LimitAll;
               startFrom := Some zero |}
  /\ Forall2 forwards
       (emitted (replay bob_run "bob" (Some LimitAll) (Some zero)))
       (notifications (fst (callTool (replay bob_run) bob_call))).
Proof.
  assert (T : tool_name bob_call = TOOL) by reflexivity.
  assert (A : narrow (arguments bob_call)
              = Some {| username := "bob"; limit := Some LimitAll;
                        startFrom := Some zero |})
    by (vm_compute; reflexivity).
  split; [exact T | split; [exact A|]].
  exact (progress_is_forwarded (replay bob_run) _ _ T A).
Defined.

(** The three progress arguments of the sample run, as they reach the
    transport. *)
Example bob_notifications :
  notifications (fst (callTool (replay bob_run) bob_call))
  = [ {| method := "progress";
         params := {| param_message := "round 1"; param_progress := zero;
                      param_total := zero; param_keepAlive := None |} |};
      {| method := "progress";
         params := {| param_message := "round 2"; param_progress := of_Z 6;
                      param_total := zero;
                      param_keepAlive := Some (Some true) |} |};
      {| method := "progress";
         params := {| param_message := "round 3"; param_progress := of_Z 7;
                      param_total := of_Z 7;
                      param_keepAlive := Some None |} |} ].
Proof.
  vm_compute. reflexivity.
Qed.

Lemma unknown_tool_is_MethodNotFound_witness :
  tool_name other_tool_call <> TOOL
  /\ callTool (replay (quiet ["p1"])) other_tool_call
     = ([], Throws {| code := MethodNotFound;
                      reason := "Unknown tool: get_instagram_stories" |}).
Proof.
  assert (N : tool_name other_tool_call <> TOOL) by (vm_compute; discriminate).
  split; [exact N|].
  exact (unknown_tool_is_MethodNotFound (replay (quiet ["p1"])) _ N).
Defined.

(** C9 fails at [{username: ""}]: the guard accepts the arguments, the
    [username] member is the empty string, and the fetch service is
    invoked with it. *)
Lemma empty_username_is_accepted :
  isValidFetchArgs (arguments empty_username_call) = true
  /\ get (arguments empty_username_call) Username = VString ""
  /\ String.length "" = 0
  /\ fst (callTool (replay (quiet [])) empty_username_call)
     = [FetchInvoked "" None None].
Proof.
  repeat split; vm_compute; reflexivity.
Qed.

Lemma accepted_username_is_string_witness :
  isValidFetchArgs (arguments alice_call) = true
  /\ exists s, get (arguments alice_call) Username = VString s.
Proof.
  assert (V : isValidFetchArgs (arguments alice_call) = true)
    by (vm_compute; reflexivity).
  split; [exact V|].
  exact (accepted_username_is_string _ V).
Defined.

End Instances.

(** ** Further properties of the type guard *)

Section GuardMembers.

Context {Post : Type}.
Variable fetchPosts :
  string -> option FetchLimit -> option number -> ServiceRun Post.

(** X1. The guard accepts exactly the objects whose [username] is a
    string, whose [limit] is missing, [undefined], a number or the string
    ["all"], and whose [startFrom] is missing, [undefined] or a number.
    Every other value is rejected, among them [undefined], [null], arrays,
    and objects that hold [null] for an optional member. *)
Theorem guard_accepts_exactly (args : value) :
  isValidFetchArgs args = true <->
  exists props : gmap string value,
    args = VObject props
    /\ (exists u, props !! "username" = Some (VString u))
    /\ (props !! "limit" = None
        \/ props !! "limit" = Some VUndefined
        \/ (exists n, props !! "limit" = Some (VNumber n))
        \/ props !! "limit" = Some (VString "all"))
    /\ (props !! "startFrom" = None
        \/ props !! "startFrom" = Some VUndefined
        \/ (exists n, props !! "startFrom" = Some (VNumber n))).
Proof.
  split.
  - destruct args; try discriminate.
    rewrite guard_on_members. unfold get. cbn [field_name].
    intros H. apply andb_prop in H as [H Hs]. apply andb_prop in H as [Hu Hl].
    exists props. split; [reflexivity|]. repeat split.
    + destruct (props !! "username") as [[]|]; try discriminate. eauto.
    + destruct (props !! "limit") as [[]|]; try discriminate; eauto 6.
      cbn in Hl. apply String.eqb_eq in Hl. subst. auto.
    + destruct (props !! "startFrom") as [[]|]; try discriminate; eauto.
  - intros (props & -> & [u Hu] & Hl & Hs).
    rewrite guard_on_members. unfold get. cbn [field_name]. rewrite Hu.
    destruct Hl as [-> | [-> | [[n ->] | ->]]];
      destruct Hs as [-> | [-> | [m ->]]]; reflexivity.
Qed.

Lemma get_insert_other (props : gmap string value) (k : string) (v : value)
    (f : field) :
  k <> field_name f ->
  get (VObject (<[k := v]> props)) f = get (VObject props) f.
Proof.
  intros Hk. unfold get. rewrite lookup_insert_ne; [reflexivity | exact Hk].
Qed.

(** The handler looks at an argument object through its three members
    only. *)
Lemma callTool_by_members (tool : string) (props1 props2 : gmap string value) :
  (forall f, get (VObject props1) f = get (VObject props2) f) ->
  callTool fetchPosts {| tool_name := tool; arguments := VObject props1 |}
  = callTool fetchPosts {| tool_name := tool; arguments := VObject props2 |}.
Proof.
  intros H. unfold callTool. cbn [tool_name arguments].
  rewrite !guard_on_members. unfold narrow.
  rewrite (H Username), (H Limit), (H StartFrom). reflexivity.
Qed.

(** X2. Members other than [username], [limit] and [startFrom] are
    ignored: adding or replacing one changes neither the outcome of the call
    nor what the handler does. *)
Theorem other_members_are_ignored
    (tool : string) (props : gmap string value) (k : string) (v : value) :
  k <> "username" -> k <> "limit" -> k <> "startFrom" ->
  callTool fetchPosts
    {| tool_name := tool; arguments := VObject (<[k := v]> props) |}
  = callTool fetchPosts {| tool_name := tool; arguments := VObject props |}.
Proof.
  intros Hu Hl Hs. apply callTool_by_members.
  intros [| |]; apply get_insert_other; assumption.
Qed.

End GuardMembers.

(** ** Further properties of the call handler *)

Section HandlerOutcomes.

Context {Post : Type}.
Variable fetchPosts :
  string -> option FetchLimit -> option number -> ServiceRun Post.

Lemma relayed_are_notifications (args : list ProgressArg) :
  forallb (fun e => negb (is_fetch e))
          (map (fun arg => Notified (progressCallback arg)) args) = true.
Proof.
  induction args as [|arg args IH]; cbn; [reflexivity | exact IH].
Qed.

(** The three ways a handler invocation can go. *)
Lemma callTool_cases (request : CallToolRequest) :
  (tool_name request <> TOOL
   /\ callTool fetchPosts request
      = ([], Throws {| code := MethodNotFound;
                       reason := String.append "Unknown tool: "
                                   (tool_name request) |}))
  \/ (tool_name request = TOOL
      /\ isValidFetchArgs (arguments request) = false
      /\ callTool fetchPosts request
         = ([], Throws {| code := InvalidParams;
                          reason := "Invalid fetch arguments" |}))
  \/ (tool_name request = TOOL
      /\ isValidFetchArgs (arguments request) = true
      /\ exists a,
           narrow (arguments request) = Some a
           /\ callTool fetchPosts request = fetch_and_wrap fetchPosts a).
Proof.
  destruct (String.eqb (tool_name request) TOOL) eqn:Hn.
  - apply String.eqb_eq in Hn. right.
    destruct (isValidFetchArgs (arguments request)) eqn:Hv.
    + right. destruct (narrow_of_valid _ Hv) as [a Ha].
      repeat split; try assumption.
      exists a. split; [exact Ha|]. apply callTool_valid; assumption.
    + left. repeat split; try assumption. apply callTool_invalid; assumption.
  - apply String.eqb_neq in Hn. left.
    split; [exact Hn|]. apply callTool_unknown; assumption.
Qed.

Lemma fetch_and_wrap_returns (a : FetchArgs) :
  exists result, snd (fetch_and_wrap fetchPosts a) = Returns result.
Proof.
  unfold fetch_and_wrap. destruct (settled _); cbn; eauto.
Qed.

(** X3. A handler invocation that returns a result, success or soft
    error, has invoked the fetch service exactly once, before any
    notification; an invocation that throws a protocol error has done
    nothing at all.  The service is never invoked a second time. *)
Theorem service_invoked_once_or_never (request : CallToolRequest) :
  match snd (callTool fetchPosts request) with
  | Throws _ => fst (callTool fetchPosts request) = []
  | Returns _ =>
      exists u l s relayed,
        fst (callTool fetchPosts request) = FetchInvoked u l s :: relayed
        /\ forallb (fun e => negb (is_fetch e)) relayed = true
  end.
Proof.
  destruct (callTool_cases request)
    as [(_ & ->) | [(_ & _ & ->) | (_ & _ & a & _ & ->)]];
    try reflexivity.
  destruct (fetch_and_wrap_returns a) as [result ->].
  rewrite fetch_and_wrap_log. do 4 eexists. split; [reflexivity|].
  apply relayed_are_notifications.
Qed.

(** X4. The handler throws an [McpError] in exactly two situations, both
    settled before the fetch service is invoked: the tool name is not
    [get_instagram_posts], and the error is built with the code
    [MethodNotFound] and the text ["Unknown tool: "] followed by the name;
    or the name is right and the guard rejects the arguments, and the error
    is built with the code [InvalidParams] and the text
    ["Invalid fetch arguments"].  A wrong name wins over wrong arguments.
    [reason] is the text handed to the [McpError] constructor, not the
    [message] the SDK derives from it. *)
Theorem protocol_error_iff (request : CallToolRequest) (e : McpError) :
  snd (callTool fetchPosts request) = Throws e <->
  (tool_name request <> TOOL
   /\ e = {| code := MethodNotFound;
             reason := String.append "Unknown tool: " (tool_name request) |})
  \/ (tool_name request = TOOL
      /\ isValidFetchArgs (arguments request) = false
      /\ e = {| code := InvalidParams; reason := "Invalid fetch arguments" |}).
Proof.
  destruct (callTool_cases request)
    as [(Hn & ->) | [(Hn & Hv & ->) | (Hn & Hv & a & _ & ->)]]; cbn [snd].
  - split.
    + intros H. injection H as <-. left. auto.
    + intros [(_ & ->) | (Hn' & _)]; [reflexivity | contradiction].
  - split.
    + intros H. injection H as <-. right. auto.
    + intros [(Hn' & _) | (_ & _ & ->)]; [contradiction | reflexivity].
  - destruct (fetch_and_wrap_returns a) as [result ->]. split.
    + discriminate.
    + intros [(Hn' & _) | (_ & Hv' & _)]; [contradiction | congruence].
Qed.

(** X5. When the fetch service resolves, the handler returns the posts it
    was given, all of them and in the same order, in a result that is not
    flagged as an error.  The adapter neither truncates them to [limit] nor
    drops any: [currentBatch.size] is their number. *)
Theorem resolved_posts_are_returned_as_is
    (request : CallToolRequest) (a : FetchArgs) (ps : list Post) :
  tool_name request = TOOL ->
  narrow (arguments request) = Some a ->
  settled (fetchPosts (username a) (limit a) (startFrom a)) = Resolved ps ->
  exists pg,
    snd (callTool fetchPosts request)
    = Returns {| content := [JsonContent {| posts := ps; pagination := pg |}];
                 isError := None |}
    /\ batch_size (currentBatch pg) = length ps.
Proof.
  intros Hn Ha Hs.
  rewrite (callTool_valid fetchPosts _ _ Hn Ha).
  unfold fetch_and_wrap. rewrite Hs. cbn [snd]. unfold envelope.
  eexists. split; reflexivity.
Qed.

(** X6. For a call that passes validation the fetch service is invoked
    with the three members as the caller gave them: the [username] string;
    for [limit] nothing when it is absent, the same number when it is a
    number, ["all"] when it is ["all"]; for [startFrom] nothing when it is
    absent and the same number otherwise.  An absent [startFrom] therefore
    reaches the service as [undefined]: the default 0 is used for the
    envelope only. *)
Theorem arguments_are_forwarded_as_given (request : CallToolRequest) :
  tool_name request = TOOL ->
  isValidFetchArgs (arguments request) = true ->
  exists u l s relayed,
    fst (callTool fetchPosts request) = FetchInvoked u l s :: relayed
    /\ get (arguments request) Username = VString u
    /\ limit_given (get (arguments request) Limit) l
    /\ cursor_given (get (arguments request) StartFrom) s.
Proof.
  intros Hn Hv. destruct (narrow_of_valid _ Hv) as [a Ha].
  rewrite (callTool_valid fetchPosts _ _ Hn Ha), fetch_and_wrap_log.
  exists (username a), (limit a), (startFrom a). eexists.
  split; [reflexivity|]. apply given_of_narrow. exact Ha.
Qed.

End HandlerOutcomes.

(** ** Further properties of the pagination block *)

Section Cursor.

Lemma or_default_not_neg_zero (s : option number) :
  or_default s zero <> neg_zero.
Proof.
  unfold or_default. destruct s as [[[|]|[|]| |sx m e]|]; cbn; discriminate.
Qed.

(** Adding the length of an empty array leaves the cursor as it is. *)
Lemma add_nothing (s : option number) :
  add (or_default s zero) (of_nat 0) = or_default s zero.
Proof.
  pose proof (or_default_not_neg_zero s) as H.
  change (of_nat 0) with zero. unfold add, zero, neg_zero in *.
  destruct (or_default s (S754_zero false)) as [[|]|[|]| |sx m e];
    cbn; congruence.
Qed.

Context {Post : Type}.
Variable fetchPosts :
  string -> option FetchLimit -> option number -> ServiceRun Post.

(** X7. A [startFrom] that is falsy, that is 0, -0 or NaN, is treated as
    if it were absent: a successful call reports [currentBatch.start] as
    0 and both [currentBatch.end] and [nextStartFrom] as the number of
    posts. *)
Theorem falsy_cursor_counts_from_zero
    (request : CallToolRequest) (p : Payload Post) (x : number) :
  get (arguments request) StartFrom = VNumber x ->
  truthy x = false ->
  succeeds_with fetchPosts request p ->
  batch_start (currentBatch (pagination p)) = zero
  /\ batch_end (currentBatch (pagination p)) = of_nat (length (posts p))
  /\ nextStartFrom (pagination p) = of_nat (length (posts p)).
Proof.
  intros Hx Hf H.
  destruct (pagination_of_success _ _ _ H)
    as (a & Ha & Hstart & Hend & _ & Hnext & _).
  destruct (narrow_members _ _ Ha) as (_ & _ & Hfrom).
  rewrite Hx in Hfrom. cbn in Hfrom. injection Hfrom as Hfrom.
  rewrite Hstart, Hend, Hnext, <- Hfrom. cbn [or_default]. rewrite Hf.
  rewrite add_zero_of_nat. auto.
Qed.

(** X8. A successful call that returns no posts does not move the cursor:
    [currentBatch.size] is 0, [hasMore] is false, and [currentBatch.end]
    and [nextStartFrom] are [currentBatch.start]. *)
Theorem empty_page_keeps_cursor (request : CallToolRequest) (p : Payload Post) :
  succeeds_with fetchPosts request p ->
  posts p = [] ->
  batch_size (currentBatch (pagination p)) = 0
  /\ hasMore (pagination p) = false
  /\ batch_end (currentBatch (pagination p))
     = batch_start (currentBatch (pagination p))
  /\ nextStartFrom (pagination p) = batch_start (currentBatch (pagination p)).
Proof.
  intros H Hp.
  destruct (pagination_of_success _ _ _ H)
    as (a & _ & Hstart & Hend & Hsize & Hnext & Hmore).
  rewrite Hstart, Hend, Hsize, Hnext, Hmore, Hp. cbn [length].
  rewrite add_nothing. auto.
Qed.

Variable nextFetchPosts :
  string -> option FetchLimit -> option number -> ServiceRun Post.

(** X9. Pages chain: when a later call passes the [nextStartFrom] of a
    successful call as its [startFrom], and that value is not NaN, the later
    call's [currentBatch.start] is numerically the earlier call's
    [currentBatch.end], and its [currentBatch.end] is that value plus the
    number of posts it returned. *)
Theorem next_page_starts_where_previous_ended
    (request1 request2 : CallToolRequest) (p1 p2 : Payload Post) :
  succeeds_with fetchPosts request1 p1 ->
  get (arguments request2) StartFrom = VNumber (nextStartFrom (pagination p1)) ->
  succeeds_with nextFetchPosts request2 p2 ->
  is_nan (nextStartFrom (pagination p1)) = false ->
  num_eqb (batch_start (currentBatch (pagination p2)))
          (batch_end (currentBatch (pagination p1))) = true
  /\ batch_end (currentBatch (pagination p2))
     = add (batch_end (currentBatch (pagination p1)))
           (of_nat (length (posts p2))).
Proof.
  intros H1 Hfrom H2 Hnan.
  destruct (pagination_of_success _ _ _ H1)
    as (a1 & _ & _ & Hend1 & _ & Hnext1 & _).
  destruct (pagination_of_success _ _ _ H2)
    as (a2 & Ha2 & Hstart2 & Hend2 & _ & _ & _).
  destruct (narrow_members _ _ Ha2) as (_ & _ & Hs2).
  rewrite Hfrom in Hs2. cbn in Hs2. injection Hs2 as Hs2.
  assert (E : batch_end (currentBatch (pagination p1))
              = nextStartFrom (pagination p1)) by congruence.
  rewrite E, Hstart2, Hend2, <- Hs2. split.
  - apply or_default_zero_eqb; assumption.
  - apply add_or_default_zero; assumption.
Qed.

End Cursor.

(** ** The tool listing against the call handler *)

Section Listing.

Context {Post : Type}.
Variable fetchPosts :
  string -> option FetchLimit -> option number -> ServiceRun Post.

Lemma listed_names : map name listTools = [TOOL].
Proof. reflexivity. Qed.

(** X10. The names the listing advertises are exactly the names the call
    handler serves: a call fails with [MethodNotFound] if and only if its
    tool name is not in the listing. *)
Theorem listed_tools_are_the_served_ones (request : CallToolRequest) :
  In (tool_name request) (map name listTools) <->
  ~ (exists text,
       snd (callTool fetchPosts request)
       = Throws {| code := MethodNotFound; reason := text |}).
Proof.
  rewrite listed_names. cbn [In].
  destruct (callTool_cases fetchPosts request)
    as [(Hn & ->) | [(Hn & _ & ->) | (Hn & _ & a & _ & ->)]]; cbn [snd].
  - split.
    + intros [H | []]. symmetry in H. contradiction.
    + intros H. exfalso. apply H. eauto.
  - split.
    + intros _ [text H]. discriminate.
    + intros _. left. symmetry. exact Hn.
  - destruct (fetch_and_wrap_returns fetchPosts a) as [result ->]. split.
    + intros _ [text H]. discriminate.
    + intros _. left. symmetry. exact Hn.
Qed.

Lemma listed_schema (t : ToolDescriptor) :
  In t listTools ->
  required_members (inputSchema t) = ["username"]
  /\ declared_types (inputSchema t) "username" = ["string"]
  /\ declared_types (inputSchema t) "limit" = ["number"; "string"]
  /\ declared_types (inputSchema t) "startFrom" = ["number"].
Proof.
  intros [<- | []]. repeat split; vm_compute; reflexivity.
Qed.

(** X11. The guard honours the advertised input schema.  An argument
    object that lacks a member the schema lists under [required] is
    rejected; and in every argument object the guard accepts, each of the
    three members that is present has a [typeof] that the schema declares
    for it. *)
Theorem guard_honours_listed_schema
    (t : ToolDescriptor) (props : gmap string value) :
  In t listTools ->
  (forall k, In k (required_members (inputSchema t)) ->
             props !! k = None ->
             isValidFetchArgs (VObject props) = false)
  /\ (isValidFetchArgs (VObject props) = true ->
      forall f v, props !! field_name f = Some v ->
                  v <> VUndefined ->
                  In (type_name (typeof v))
                     (declared_types (inputSchema t) (field_name f))).
Proof.
  intros Ht. destruct (listed_schema t Ht) as (Hreq & Hu & Hl & Hs). split.
  - rewrite Hreq. intros k [<- | []] Hk.
    rewrite guard_on_members. unfold get. cbn [field_name]. rewrite Hk.
    reflexivity.
  - rewrite guard_on_members. unfold get. intros H f v Hf Hv.
    apply andb_prop in H as [H Hsf]. apply andb_prop in H as [Huf Hlf].
    destruct f; cbn [field_name] in *; rewrite Hf in *; cbn [default] in *.
    + rewrite Hu. destruct v; try discriminate. cbn. auto.
    + rewrite Hl. destruct v; try discriminate; try contradiction; cbn; auto.
    + rewrite Hs. destruct v; try discriminate; try contradiction; cbn; auto.
Qed.

End Listing.

(** ** Shutdown *)

Section Shutdown.

(** X12. On [SIGINT] the listener closes the fetch service, then the
    server, then exits with status 0.  The process exit is reached only if
    both [close] calls succeed: when closing the service fails the server is
    not closed, and when either fails the listener's promise is rejected
    with that failure and [process.exit] is not called. *)
Theorem shutdown_exits_only_after_both_closed (c : Closers) :
  (service_close c = None /\ server_close c = None
   /\ onSIGINT c = ([CloseService; CloseServer; Exit 0], inl tt))
  \/ (exists e, service_close c = Some e
                /\ onSIGINT c = ([CloseService], inr e))
  \/ (exists e, service_close c = None /\ server_close c = Some e
                /\ onSIGINT c = ([CloseService; CloseServer], inr e)).
Proof.
  destruct c as [[e1|] [e2|]]; unfold onSIGINT, cleanup, andThen; cbn.
  - right; left. eauto.
  - right; left. eauto.
  - right; right. eauto.
  - left. auto.
Qed.

End Shutdown.

(** ** The further properties at the sample calls *)

Section MoreInstances.

Import Samples Scenarios.

Lemma other_members_are_ignored_witness :
  "cursor" <> "username" /\ "cursor" <> "limit" /\ "cursor" <> "startFrom"
  /\ callTool (replay (quiet ["p1"; "p2"]))
       {| tool_name := TOOL;
          arguments := VObject (<["cursor" := VString "abc"]> alice_members) |}
     = callTool (replay (quiet ["p1"; "p2"]))
         {| tool_name := TOOL; arguments := VObject alice_members |}.
Proof.
  assert (U : "cursor" <> "username") by (intros H; discriminate H).
  assert (L : "cursor" <> "limit") by (intros H; discriminate H).
  assert (S : "cursor" <> "startFrom") by (intros H; discriminate H).
  split; [exact U | split; [exact L | split; [exact S|]]].
  exact (other_members_are_ignored (replay (quiet ["p1"; "p2"])) TOOL
           alice_members "cursor" (VString "abc") U L S).
Defined.

Lemma resolved_posts_are_returned_as_is_witness :
  tool_name alice_call = TOOL
  /\ narrow (arguments alice_call)
     = Some {| username := "alice"; limit := Some (LimitCount (of_Z 2));
               startFrom := Some (of_Z 5) |}
  /\ settled (replay (quiet five_posts) "alice" (Some (LimitCount (of_Z 2)))
                (Some (of_Z 5)))
     = Resolved five_posts
  /\ (exists pg,
        snd (callTool (replay (quiet five_posts)) alice_call)
        = Returns {| content := [JsonContent {| posts := five_posts;
                                                pagination := pg |}];
                     isError := None |}
        /\ batch_size (currentBatch pg) = length five_posts).
Proof.
  assert (T : tool_name alice_call = TOOL) by reflexivity.
  assert (A : narrow (arguments alice_call)
              = Some {| username := "alice";
                        limit := Some (LimitCount (of_Z 2));
                        startFrom := Some (of_Z 5) |})
    by (vm_compute; reflexivity).
  assert (R : settled (replay (quiet five_posts) "alice"
                         (Some (LimitCount (of_Z 2))) (Some (of_Z 5)))
              = Resolved five_posts) by reflexivity.
  split; [exact T | split; [exact A | split; [exact R|]]].
  exact (resolved_posts_are_returned_as_is (replay (quiet five_posts))
           _ _ _ T A R).
Defined.

Lemma arguments_are_forwarded_as_given_witness :
  tool_name carol_call = TOOL
  /\ isValidFetchArgs (arguments carol_call) = true
  /\ (exists u l s relayed,
        fst (callTool (replay (quiet (concat carol_rounds))) carol_call)
        = FetchInvoked u l s :: relayed
        /\ get (arguments carol_call) Username = VString u
        /\ limit_given (get (arguments carol_call) Limit) l
        /\ cursor_given (get (arguments carol_call) StartFrom) s).
Proof.
  assert (T : tool_name carol_call = TOOL) by reflexivity.
  assert (V : isValidFetchArgs (arguments carol_call) = true)
    by (vm_compute; reflexivity).
  split; [exact T | split; [exact V|]].
  exact (arguments_are_forwarded_as_given
           (replay (quiet (concat carol_rounds))) _ T V).
Defined.

(** What the service is handed in three sample calls. *)
Example forwarded_arguments :
  fst (callTool (replay (quiet (concat carol_rounds))) carol_call)
  = [FetchInvoked "carol" (Some LimitAll) None]
  /\ fst (callTool (replay (quiet ["p1"; "p2"])) alice_call)
     = [FetchInvoked "alice" (Some (LimitCount (of_Z 2))) (Some (of_Z 5))]
  /\ fst (callTool (replay (quiet [])) empty_username_call)
     = [FetchInvoked "" None None].
Proof.
  repeat split; vm_compute; reflexivity.
Qed.

Lemma falsy_cursor_counts_from_zero_witness :
  get (arguments nan_cursor_call) StartFrom = VNumber nan
  /\ truthy nan = false
  /\ succeeds_with (replay (quiet ["p1"; "p2"])) nan_cursor_call
       nan_cursor_payload
  /\ (batch_start (currentBatch (pagination nan_cursor_payload)) = zero
      /\ batch_end (currentBatch (pagination nan_cursor_payload))
         = of_nat (length (posts nan_cursor_payload))
      /\ nextStartFrom (pagination nan_cursor_payload)
         = of_nat (length (posts nan_cursor_payload))).
Proof.
  assert (G : get (arguments nan_cursor_call) StartFrom = VNumber nan)
    by (vm_compute; reflexivity).
  assert (F : truthy nan = false) by reflexivity.
  assert (S : succeeds_with (replay (quiet ["p1"; "p2"])) nan_cursor_call
                nan_cursor_payload)
    by (vm_compute; reflexivity).
  split; [exact G | split; [exact F | split; [exact S|]]].
  exact (falsy_cursor_counts_from_zero _ _ _ _ G F S).
Defined.

Lemma empty_page_keeps_cursor_witness :
  succeeds_with (replay (quiet [])) alice_call drained_payload
  /\ posts drained_payload = []
  /\ (batch_size (currentBatch (pagination drained_payload)) = 0
      /\ hasMore (pagination drained_payload) = false
      /\ batch_end (currentBatch (pagination drained_payload))
         = batch_start (currentBatch (pagination drained_payload))
      /\ nextStartFrom (pagination drained_payload)
         = batch_start (currentBatch (pagination drained_payload))).
Proof.
  assert (S : succeeds_with (replay (quiet [])) alice_call drained_payload)
    by (vm_compute; reflexivity).
  assert (E : posts drained_payload = []) by reflexivity.
  split; [exact S | split; [exact E|]].
  exact (empty_page_keeps_cursor _ _ _ S E).
Defined.

Lemma next_page_starts_where_previous_ended_witness :
  succeeds_with (replay (quiet ["p1"; "p2"])) alice_call alice_payload
  /\ get (arguments alice_next_call) StartFrom
     = VNumber (nextStartFrom (pagination alice_payload))
  /\ succeeds_with (replay (quiet ["p3"; "p4"; "p5"])) alice_next_call
       alice_next_payload
  /\ is_nan (nextStartFrom (pagination alice_payload)) = false
  /\ (num_eqb (batch_start (currentBatch (pagination alice_next_payload)))
              (batch_end (currentBatch (pagination alice_payload))) = true
      /\ batch_end (currentBatch (pagination alice_next_payload))
         = add (batch_end (currentBatch (pagination alice_payload)))
               (of_nat (length (posts alice_next_payload)))).
Proof.
  assert (S1 : succeeds_with (replay (quiet ["p1"; "p2"])) alice_call
                 alice_payload)
    by (vm_compute; reflexivity).
  assert (G : get (arguments alice_next_call) StartFrom
              = VNumber (nextStartFrom (pagination alice_payload)))
    by (vm_compute; reflexivity).
  assert (S2 : succeeds_with (replay (quiet ["p3"; "p4"; "p5"]))
                 alice_next_call alice_next_payload)
    by (vm_compute; reflexivity).
  assert (N : is_nan (nextStartFrom (pagination alice_payload)) = false)
    by (vm_compute; reflexivity).
  split; [exact S1 | split; [exact G | split; [exact S2 | split; [exact N|]]]].
  exact (next_page_starts_where_previous_ended _ _ _ _ _ _ S1 G S2 N).
Defined.

Lemma guard_honours_listed_schema_witness :
  In the_tool listTools
  /\ (forall k, In k (required_members (inputSchema the_tool)) ->
                alice_members !! k = None ->
                isValidFetchArgs (VObject alice_members) = false)
  /\ (isValidFetchArgs (VObject alice_members) = true ->
      forall f v, alice_members !! field_name f = Some v ->
                  v <> VUndefined ->
                  In (type_name (typeof v))
                     (declared_types (inputSchema the_tool) (field_name f))).
Proof.
  assert (I : In the_tool listTools) by (left; reflexivity).
  split; [exact I|].
  exact (guard_honours_listed_schema the_tool alice_members I).
Defined.

(** The schema admits more than the guard: a [limit] of ["ten"] has a
    [typeof] that the schema declares, and the guard rejects it. *)
Example schema_is_wider_than_guard :
  In (type_name (typeof (VString "ten")))
     (declared_types (inputSchema the_tool) "limit")
  /\ isValidFetchArgs
       (arguments (call [("username", VString "alice");
                         ("limit", VString "ten")])) = false.
Proof.
  split; vm_compute; auto.
Qed.

End MoreInstances.
